(** * The atomistic-cookbook example scripts

    The repository consists of two narrated example scripts,
    [examples/cg-product/cg-product.py] and
    [examples/hea-remd-mc-lammps/hea-remd-mc-lammps.py].  Both are mostly
    prose: a module docstring followed by comment cells.  This development
    fixes their text, separates prose from statements with a line-level
    reading of Python's lexical rules, and gives the statements of the
    replica-exchange example a semantics over the external libraries it
    calls ([ase.io] and [chemiscope]). *)

From Stdlib Require Import String Ascii List Bool.
Import ListNotations.
Local Open Scope list_scope.
Local Open Scope string_scope.

(** ** The text of the two scripts *)

Module PySource.

(** The double-quote character, kept apart so that the lines below can be
    written without escapes. *)
Definition dq : string := String "034"%char EmptyString.

(** [examples/hea-remd-mc-lammps/hea-remd-mc-lammps.py], one entry per line,
    numbered as in the file. *)
Definition hea_remd_mc_lammps_py : list string :=
  [
    (*   1 *) dq ++ dq ++ dq;
    (*   2 *) "Replica-exachange molecular dynamics with Monte-Carlo atom swaps";
    (*   3 *) "================================================================";
    (*   4 *) EmptyString;
    (*   5 *) ":Authors: Arslan Mazitov `@abmazitov <https://github.com/abmazitov/>`_";
    (*   6 *) EmptyString;
    (*   7 *) "This example shows how to run the replica-exchange molecular dynamics";
    (*   8 *) "(REMD) simulation with Monte-Carlo (MC) atom swaps using a METATENSOR-enabled";
    (*   9 *) "`LAMMPS <https://github.com/metatensor/lammps/tree/atom_swap>`_";
    (*  10 *) "code with the high-entropy alloy (HEA) system as an example. Within this";
    (*  11 *) "example the surface segregation in the IrFeCoNiCu alloys is studied using";
    (*  12 *) "a simplified version of the COSMO universal MLIP.";
    (*  13 *) dq ++ dq ++ dq;
    (*  14 *) EmptyString;
    (*  15 *) "import ase.io";
    (*  16 *) "import chemiscope";
    (*  17 *) EmptyString;
    (*  18 *) EmptyString;
    (*  19 *) "# %%";
    (*  20 *) "# Understanding Monte-Carlo atom swaps";
    (*  21 *) "# ------------------------------------";
    (*  22 *) "#";
    (*  23 *) "# The first concept of this simulation is the Monte-Carlo atom swaps. The";
    (*  24 *) "# atom swaps basically swaps between a pair of randomly selected atoms in";
    (*  25 *) "# the system, which only happens if the Metropolis criterion is satisfied.";
    (*  26 *) "# The Metropolis criterion is a probabilistic criterion that determines";
    (*  27 *) "# whether the swap is accepted or rejected based on the energy difference";
    (*  28 *) "# between the initial and final states of the system. The overall";
    (*  29 *) "# composition of the system is conserved during the swap, so the algorithm";
    (*  30 *) "# essentially only mixes the spatial configuration of the atoms in the";
    (*  31 *) "# system.";
    (*  32 *) "#";
    (*  33 *) "# The acceptance probability of the swap is given by the following";
    (*  34 *) "# formula:";
    (*  35 *) "#";
    (*  36 *) "# .. math::";
    (*  37 *) "#";
    (*  38 *) "#    P_{\text{accept}} = \min\left(1,";
    (*  39 *) "#    \exp\left(-\frac{\Delta E}{k_B T}\right)\right)";
    (*  40 *) "#";
    (*  41 *) "# where :math:`\Delta E` is the energy difference between the initial and";
    (*  42 *) "# final states of the system, :math:`k_B` is the Boltzmann constant, and";
    (*  43 *) "# :math:`T` is the temperature of the system.";
    (*  44 *) "#";
    (*  45 *) "# .. figure:: MC.png";
    (*  46 *) "#    :align: center";
    (*  47 *) "#    :width: 600px";
    (*  48 *) "#";
    (*  49 *) "#    Representation of the Monte-Carlo atom swaps (Figure from Ref. `[1]";
    (*  50 *) "#    <https://doi.org/10.1103/PhysRevE.108.024127>`_). The selected atom";
    (*  51 *) "#    (in blue) is swapped with another randomly chosen atom from certain";
    (*  52 *) "#    group of available atoms (in green). Depending on a computational setup,";
    (*  53 *) "#    a swap may be performed with any other atom in the system (left), a group";
    (*  54 *) "#    of atoms in a certain cutoff radius (middle), or a certain group of atoms";
    (*  55 *) "#    in the whole system (right), i.e. when this ground is represened by a";
    (*  56 *) "#    specific element, or a group of elements. In this example, we will use the";
    (*  57 *) "#    third option, where the swap is performed with a certain group of atoms";
    (*  58 *) "#    in the whole system.";
    (*  59 *) "#";
    (*  60 *) "#";
    (*  61 *) "# The MC atom swaps technique is a powerfull tool for enhancing the sampling of";
    (*  62 *) "# the configuration space of the system, and it is particularly useful for";
    (*  63 *) "# systems with high configurational entropy, such as HEAs. It helps to reach";
    (*  64 *) "# the equilibrium state of the system faster and more efficiently compared to";
    (*  65 *) "# the conventional molecular dynamics simulations. However, this method only";
    (*  66 *) "# results in the thermodynamic relaxation of the system, and it does not";
    (*  67 *) "# account for the true equilibration kinetics and time, as it does not consider";
    (*  68 *) "# kinetic effects. Therefore, it is usually possible to get the equilibrium";
    (*  69 *) "# state of the system, but not the true equilibration kinetics and time.";
    (*  70 *) EmptyString;
    (*  71 *) "# %%";
    (*  72 *) "# Understanding the replica-exchange molecular dynamics";
    (*  73 *) "# -----------------------------------------------------";
    (*  74 *) "#";
    (*  75 *) "# The REMD method, also refered to as a parallel tempering, is a technique";
    (*  76 *) "# that allows to enhance the sampling of the configuration space of the system";
    (*  77 *) "# by running multiple simulations at different temperatures in parallel. The";
    (*  78 *) "# idea is to exchange the configurations between the replicas at different";
    (*  79 *) "# temperatures, which helps to overcome the energy barriers and reach the";
    (*  80 *) "# equilibrium state of the system.";
    (*  81 *) "#";
    (*  82 *) "# .. figure:: REMD.png";
    (*  83 *) "#    :align: center";
    (*  84 *) "#    :width: 600px";
    (*  85 *) "#";
    (*  86 *) "#    Representation of the replica-exchange molecular dynamics";
    (*  87 *) "#    (Figure from Ref.";
    (*  88 *) "#    `[2] <https://link.springer.com/protocol/10.1007/978-1-4939-7811-3_5>`_).";
    (*  89 *) "#    Each replica is run under a certain temperature. Ocasionaly (usually";
    (*  90 *) "#    every few hundreds steps), the configurations of the replicas are";
    (*  91 *) "#    exchanged, which helps to overcome the energy barriers and reach the";
    (*  92 *) "#    equilibrium state of the system. The exchange is performed based on the";
    (*  93 *) "#    Metropolis criterion, which is similar to the one used in the MC atom";
    (*  94 *) "#    swaps.";
    (*  95 *) "#";
    (*  96 *) "# The acceptance probability of the exchange is given by the following formula:";
    (*  97 *) "#";
    (*  98 *) "# .. math::";
    (*  99 *) "#";
    (* 100 *) "#    P_{\text{accept}} = \min\left(1, \exp\left(-\frac{\Delta E}{k_B (T_1 -";
    (* 101 *) "#    T_2)}\right)\right)";
    (* 102 *) "#";
    (* 103 *) "#";
    (* 104 *) "# where :math:`\Delta E` is the energy difference between the initial and";
    (* 105 *) "# final states of the system, :math:`k_B` is the Boltzmann constant,";
    (* 106 *) "# and :math:`T_1` and :math:`T_2` are the temperatures of the replicas.";
    (* 107 *) "#";
    (* 108 *) "# The REMD method is particularly useful for systems with complex energy";
    (* 109 *) "# landscapes, such as HEAs, where the energy barriers between the different";
    (* 110 *) "# configurations are high. The REMD method helps to overcome these barriers";
    (* 111 *) "# and reach the equilibrium state of the system faster and more efficiently";
    (* 112 *) "# compared to the conventional molecular dynamics simulations, similar to the";
    (* 113 *) "# MC atom swaps.";
    (* 114 *) "#";
    (* 115 *) "# The combination of the REMD and MC atom swaps methods is a powerful";
    (* 116 *) "# technique for enhancing the sampling of the configuration space of the";
    (* 117 *) "# system and reaching the equilibrium state of the system. In this example,";
    (* 118 *) "# we will demonstrate how to run the REMD/MC simulation using the";
    (* 119 *) "# LAMMPS-METATENSOR code with the HEA system as an example.";
    (* 120 *) EmptyString;
    (* 121 *) EmptyString;
    (* 122 *) "# %%";
    (* 123 *) "# Running the REMD/MC simulation with LAMMPS-METATENSOR";
    (* 124 *) "# -----------------------------------------------------";
    (* 125 *) "#";
    (* 126 *) "# In this example we will run the REMD/MC simulation to study the surface";
    (* 127 *) "# segregation in the IrFeCoNiCu high-entropy alloy. This alloy has a certain";
    (* 128 *) "# propensity of the Cu atoms to segregate on the surface of the alloy. The";
    (* 129 *) "# simulation is based on METATENSOR-enabled LAMMPS code, which allows to";
    (* 130 *) "# use the METATENSOR models interface with LAMMPS.";
    (* 131 *) EmptyString;
    (* 132 *) "# %%";
    (* 133 *) "# Installing the METATENSOR-enabled LAMMPS";
    (* 134 *) "# ~~~~~~~~~~~~~~~~~~~~~~~~~~~~~~~~~~~~~~~~~";
    (* 135 *) "# The METATENSOR-enabled LAMMPS code is available on the METATENSOR";
    (* 136 *) "# `GitHub <https://github.com/metatensor/lammps>`_ repository.";
    (* 137 *) "# You can install it by following the instructions in the documentation.";
    (* 138 *) "# Please note that you need to checkout the ``atom_swap`` branch with";
    (* 139 *) "# ``git checkout -b atom_swap`` to use the MC atom swaps functionality.";
    (* 140 *) "#";
    (* 141 *) EmptyString;
    (* 142 *) "# %%";
    (* 143 *) "# Preparing the input files";
    (* 144 *) "# ~~~~~~~~~~~~~~~~~~~~~~~~~";
    (* 145 *) "# The input files for the REMD/MC simulation are provided in the";
    (* 146 *) "# ``resources`` folder of this example. Let's first load the initial";
    (* 147 *) "# configuration of the alloy and visualize it using the chemiscope library.";
    (* 148 *) EmptyString;
    (* 149 *) "atoms = ase.io.read(" ++ dq ++ "resources/hea.xyz" ++ dq ++ ", index=" ++ dq ++ ":" ++ dq ++ ")";
    (* 150 *) "chemiscope.show(frames=atoms, mode=" ++ dq ++ "structure" ++ dq ++ ")";
    (* 151 *) EmptyString;
    (* 152 *) "# %%";
    (* 153 *) "# WIP"
  ].

(** [examples/cg-product/cg-product.py], one entry per line. *)
Definition cg_product_py : list string :=
  [
    (*   1 *) dq ++ dq ++ dq;
    (*   2 *) "Clebsh-Gordan Products Tutorial";
    (*   3 *) "===============================";
    (*   4 *) EmptyString;
    (*   5 *) ":Authors: Joe W. Abbott `@jwa7 <https://github.com/jwa7>`__,";
    (*   6 *) "          Paolo Pegolo `@ppegolo <https://github.com/ppegolo>`__";
    (*   7 *) EmptyString;
    (*   8 *) "This tutorial explains how to ...";
    (*   9 *) dq ++ dq ++ dq;
    (*  10 *) EmptyString;
    (*  11 *) "# %%";
    (*  12 *) "# First, import the necessary packages";
    (*  13 *) "#";
    (*  14 *) EmptyString;
    (*  15 *) "# %%";
    (*  16 *) "# 1. Compute a Spherical Harmonic Expansion";
    (*  17 *) EmptyString;
    (*  18 *) "# %%";
    (*  19 *) "# 2. Compute the Clebsch-Gordan Coefficients";
    (*  20 *) EmptyString;
    (*  21 *) "# %%";
    (*  22 *) "# 3. Compute an Equivariant Power Spectrum";
    (*  23 *) EmptyString;
    (*  24 *) "# %%";
    (*  25 *) "# 4. Compute an Equivariant Power Spectrum By Pair"
  ].

(** *** Line-level lexical structure

    What Python does with a line of these files depends only on how the line
    starts and on whether a triple-quoted string is open: a line opening with
    [#] is a comment, a line inside (or delimiting) a triple-quoted string
    belongs to that string, an empty line is skipped, anything else is a
    statement. *)

Inductive line_kind : Set := Blank | Comment | DocString | Code.

Definition line_kind_eqb (a b : line_kind) : bool :=
  match a, b with
  | Blank, Blank | Comment, Comment | DocString, DocString | Code, Code => true
  | _, _ => false
  end.

Definition triple_quote : string := dq ++ dq ++ dq.

Definition is_space (c : ascii) : bool :=
  (Ascii.eqb c " " || Ascii.eqb c "009")%bool.

Fixpoint lstrip (s : string) : string :=
  match s with
  | String c r => if is_space c then lstrip r else s
  | EmptyString => EmptyString
  end.

(** Number of (non-overlapping) triple quotes on a line; [skip] characters
    are still part of the delimiter found last. *)
Fixpoint count_triple_quotes (skip : nat) (s : string) : nat :=
  match s with
  | EmptyString => 0
  | String _ r =>
      match skip with
      | S k => count_triple_quotes k r
      | O => if String.prefix triple_quote s
             then S (count_triple_quotes 2 r)
             else count_triple_quotes 0 r
      end
  end.

(** [has_sub p s]: [p] occurs somewhere in [s]. *)
Fixpoint has_sub (p s : string) : bool :=
  match s with
  | EmptyString => String.prefix p EmptyString
  | String _ r => (String.prefix p s || has_sub p r)%bool
  end.

(** Kind of one line, given whether a triple-quoted string is open when the
    line starts. *)
Definition kind_of_line (in_string : bool) (l : string) : line_kind :=
  let t := lstrip l in
  if in_string then DocString
  else if String.eqb t EmptyString then Blank
  else if String.prefix "#" t then Comment
  else if String.prefix triple_quote t then DocString
  else Code.

(** Lines with their number and kind; the string state flips on every line
    that holds an odd number of triple quotes. *)
Fixpoint classify (n : nat) (in_string : bool) (ls : list string)
  : list (nat * line_kind * string) :=
  match ls with
  | [] => []
  | l :: rest =>
      (n, kind_of_line in_string l, l)
        :: classify (S n)
             (xorb in_string (Nat.odd (count_triple_quotes 0 l))) rest
  end.

Definition classified (file : list string) : list (nat * line_kind * string) :=
  classify 1 false file.

Definition lines_of_kind (k : line_kind) (file : list string)
  : list (nat * string) :=
  map (fun e => (fst (fst e), snd e))
      (filter (fun e => line_kind_eqb (snd (fst e)) k) (classified file)).

(** The statements of a file: its [Code] lines, with their line numbers. *)
Definition statements (file : list string) : list (nat * string) :=
  lines_of_kind Code file.

(** A line that writes out part of a Metropolis acceptance formula: the
    tutorial typesets both as
    [P_{\text{accept}} = \min\left(1, \exp\left(-\frac{...}{...}\right)\right)],
    each over two lines. *)
Definition mentions_formula (l : string) : bool :=
  (has_sub "\exp" l || has_sub "\min" l || has_sub "P_{\text{accept}}" l
   || has_sub "\frac" l || has_sub "\right)" l)%bool.

Definition formula_lines (file : list string) : list (nat * line_kind) :=
  map (fun e => fst e)
      (filter (fun e => mentions_formula (snd e)) (classified file)).

(** Keywords that would introduce logic of the script's own. *)
Definition introduces_logic (l : string) : bool :=
  let t := lstrip l in
  (String.prefix "def " t || String.prefix "class " t
   || String.prefix "if " t || String.prefix "for " t
   || String.prefix "while " t || String.prefix "lambda" t)%bool.

End PySource.

(** ** The statements of the replica-exchange example, run

    The four statements call into [ase] and [chemiscope] and nothing else.
    Those libraries are not part of the repository, so their behaviour is
    left open: a script is a tree of external calls, and a _world_ answers
    each call with a value or an exception and moves to its next state. *)

Module Script.

Section ExternalLibraries.

(** What [ase.io.read] returns for a slice index (a list of [ase.Atoms]),
    and what [chemiscope.show] returns (a widget). *)
Variable Frames : Type.
Variable Widget : Type.

(** The external calls the scripts can make, indexed by their result. *)
Inductive call : Type -> Type :=
| py_import (module : string) : call unit
| ase_io_read (filename : string) (index : string) : call Frames
| chemiscope_show (frames : Frames) (mode : string) : call Widget.

(** A script: it ends with a value, or makes a call and goes on with the
    answer. *)
Inductive script (A : Type) : Type :=
| Ret (a : A)
| Call (X : Type) (c : call X) (k : X -> script A).

Arguments Ret {A} a.
Arguments Call {A X} c k.

Fixpoint bind {A B : Type} (m : script A) (f : A -> script B) : script B :=
  match m with
  | Ret a => f a
  | Call c k => Call c (fun x => bind (k x) f)
  end.

Definition perform {X : Type} (c : call X) : script X := Call c Ret.

Notation "x <- m ;; k" := (bind m (fun x => k))
  (at level 61, m at next level, right associativity).
Notation "m ;; k" := (bind m (fun _ => k))
  (at level 61, right associativity).

(** Module globals after the script: the imported top-level names, most
    recent first, and the variable [atoms]. *)
Record globals : Type := mkGlobals {
  imported : list string;
  atoms : option Frames
}.

Definition empty_globals : globals :=
  {| imported := []; atoms := None |}.

(** [import m] loads module [m] and binds its top-level package name. *)
Definition import_stmt (module top : string) (g : globals) : script globals :=
  perform (py_import module) ;;
  Ret {| imported := top :: imported g; atoms := atoms g |}.

(** hea-remd-mc-lammps.py, lines 15, 16, 149 and 150.  The module docstring
    (lines 1 to 13) is a constant and makes no call. *)
Definition hea_remd_mc_lammps : script globals :=
  (* import ase.io *)
  g1 <- import_stmt "ase.io" "ase" empty_globals ;;
  (* import chemiscope *)
  g2 <- import_stmt "chemiscope" "chemiscope" g1 ;;
  (* atoms = ase.io.read("resources/hea.xyz", index=":") *)
  read_result <- perform (ase_io_read "resources/hea.xyz" ":") ;;
  let g3 := {| imported := imported g2; atoms := Some read_result |} in
  (* chemiscope.show(frames=atoms, mode="structure") *)
  perform (chemiscope_show read_result "structure") ;;
  Ret g3.

(** cg-product.py has no statement. *)
Definition cg_product : script globals := Ret empty_globals.

(** *** Running a script in a world *)

(** A Python exception, by its message. *)
Definition exn : Type := string.

(** A world with states [W] answers every call. *)
Definition world (W : Type) : Type :=
  forall X : Type, call X -> W -> (exn + X) * W.

(** One call as it was observed: the call and its answer. *)
Inductive event : Type :=
| Ev (X : Type) (c : call X) (answer : exn + X).

Arguments Ev {X} c answer.

(** [run] threads the world state, logs every call, and stops at the
    first exception, which then is the script's outcome. *)
Fixpoint run {W A : Type} (h : world W) (m : script A) (w : W)
  : (exn + A) * W * list event :=
  match m with
  | Ret a => (inr a, w, [])
  | Call c k =>
      match h _ c w with
      | (inl e, w') => (inl e, w', [Ev c (inl e)])
      | (inr x, w') =>
          let '(res, w'', tr) := run h (k x) w' in
          (res, w'', Ev c (inr x) :: tr)
      end
  end.

Definition outcome {W A} (r : (exn + A) * W * list event) : exn + A :=
  fst (fst r).
Definition final_world {W A} (r : (exn + A) * W * list event) : W :=
  snd (fst r).
Definition trace {W A} (r : (exn + A) * W * list event) : list event :=
  snd r.

(** The statement that makes a call, as the script writes it. *)
Definition statement_text {X : Type} (c : call X) : string :=
  match c with
  | py_import module => "import " ++ module
  | ase_io_read filename index =>
      "atoms = ase.io.read(" ++ PySource.dq ++ filename ++ PySource.dq
        ++ ", index=" ++ PySource.dq ++ index ++ PySource.dq ++ ")"
  | chemiscope_show _ mode =>
      "chemiscope.show(frames=atoms, mode=" ++ PySource.dq ++ mode
        ++ PySource.dq ++ ")"
  end.

Definition event_statement (e : event) : string :=
  match e with Ev c _ => statement_text c end.

(** Events by the call they log. *)
Definition is_read (e : event) : bool :=
  match e with
  | Ev c _ => match c with ase_io_read _ _ => true | _ => false end
  end.

Definition is_show (e : event) : bool :=
  match e with
  | Ev c _ => match c with chemiscope_show _ _ => true | _ => false end
  end.

(** The exception an event logs, when its call raised. *)
Definition raised (e : event) : option exn :=
  match e with
  | Ev _ (inl x) => Some x
  | Ev _ (inr _) => None
  end.

(** A world that answers [chemiscope.show] like [h] but hands back the
    widget changed by [f]: it differs from [h] only in the value that
    [show] returns. *)
Definition with_widget {W : Type} (f : Widget -> Widget) (h : world W)
  : world W :=
  fun X (c : call X) w =>
    match c in call T return (exn + T) * W -> (exn + T) * W with
    | chemiscope_show _ _ =>
        fun a => match a with
                 | (inr wd, w') => (inr (f wd), w')
                 | (inl e, w') => (inl e, w')
                 end
    | _ => fun a => a
    end (h X c w).

End ExternalLibraries.

Arguments Ret {Frames Widget A} a.
Arguments Call {Frames Widget A X} c k.
Arguments py_import {Frames Widget} module.
Arguments ase_io_read {Frames Widget} filename index.
Arguments chemiscope_show {Frames Widget} frames mode.
Arguments Ev {Frames Widget X} c answer.
Arguments mkGlobals {Frames} imported atoms.
Arguments imported {Frames} g.
Arguments atoms {Frames} g.
Arguments hea_remd_mc_lammps {Frames Widget}.
Arguments cg_product {Frames Widget}.
Arguments run {Frames Widget W A} h m w.
Arguments outcome {Frames Widget W A} r.
Arguments final_world {Frames Widget W A} r.
Arguments trace {Frames Widget W A} r.
Arguments with_widget {Frames Widget W} f h X c w.
Arguments event_statement {Frames Widget} e.
Arguments is_read {Frames Widget} e.
Arguments is_show {Frames Widget} e.
Arguments raised {Frames Widget} e.

End Script.

(** ** A small world to run the script in

    A stand-in for the two libraries, used for the concrete runs below: files
    hold numbered frames, [ase.io.read] with index [":"] hands back all of
    them (with ["-1"], its default, the last one), and [chemiscope.show]
    records what it was asked to display. *)

Module Demo.
Import Script.

Definition frames : Type := list nat.
Definition widget : Type := nat.

(** The files on disk, and what has been displayed so far. *)
Record state : Type := mkState {
  files : list (string * frames);
  displayed : list (frames * string)
}.

Fixpoint lookup (name : string) (fs : list (string * frames)) : option frames :=
  match fs with
  | [] => None
  | (n, v) :: rest => if String.eqb n name then Some v else lookup name rest
  end.

Definition demo : world frames widget state :=
  fun X (c : call frames widget X) (s : state) =>
    match c in call _ _ T return (exn + T) * state with
    | py_import _ => (inr tt, s)
    | ase_io_read name index =>
        match lookup name (files s) with
        | None => (inl "FileNotFoundError", s)
        | Some fr =>
            if String.eqb index ":" then (inr fr, s)
            else if String.eqb index "-1" then (inr (skipn (length fr - 1) fr), s)
            else (inl "ValueError", s)
        end
    | chemiscope_show fr mode =>
        (inr (length (displayed s)),
         {| files := files s; displayed := displayed s ++ [(fr, mode)]%list |})
    end.

Definition with_hea : state :=
  {| files := [("resources/hea.xyz", [0; 1; 2])]; displayed := [] |}.

Definition without_hea : state :=
  {| files := [("resources/other.xyz", [7])]; displayed := [] |}.

End Demo.

(** ** Properties *)

Module ScriptFacts.
Import PySource Script.

(** *** Concrete runs *)

Example run_with_file :
  run Demo.demo hea_remd_mc_lammps Demo.with_hea
  = (inr {| imported := ["chemiscope"; "ase"]; atoms := Some [0; 1; 2] |},
     {| Demo.files := [("resources/hea.xyz", [0; 1; 2])];
        Demo.displayed := [([0; 1; 2], "structure")] |},
     [ Ev (py_import "ase.io") (inr tt);
       Ev (py_import "chemiscope") (inr tt);
       Ev (ase_io_read "resources/hea.xyz" ":") (inr [0; 1; 2]);
       Ev (chemiscope_show [0; 1; 2] "structure") (inr 0) ]).
Proof. reflexivity. Qed.

Example run_without_file :
  run Demo.demo hea_remd_mc_lammps Demo.without_hea
  = (inl "FileNotFoundError",
     Demo.without_hea,
     [ Ev (py_import "ase.io") (inr tt);
       Ev (py_import "chemiscope") (inr tt);
       Ev (ase_io_read "resources/hea.xyz" ":") (inl "FileNotFoundError") ]).
Proof. reflexivity. Qed.

Example run_cg_product :
  run Demo.demo cg_product Demo.with_hea
  = (inr {| imported := []; atoms := None |}, Demo.with_hea, []).
Proof. reflexivity. Qed.

(** *** The text *)

Lemma cg_product_statements : statements cg_product_py = [].
Proof. vm_compute. reflexivity. Qed.

Lemma hea_statements :
  statements hea_remd_mc_lammps_py
  = [ (15, "import ase.io");
      (16, "import chemiscope");
      (149, "atoms = ase.io.read(" ++ dq ++ "resources/hea.xyz" ++ dq
              ++ ", index=" ++ dq ++ ":" ++ dq ++ ")");
      (150, "chemiscope.show(frames=atoms, mode=" ++ dq ++ "structure"
              ++ dq ++ ")") ].
Proof. vm_compute. reflexivity. Qed.

Lemma hea_formula_lines :
  formula_lines hea_remd_mc_lammps_py
  = [(38, Comment); (39, Comment); (100, Comment); (101, Comment)].
Proof. vm_compute. reflexivity. Qed.

Lemma cg_product_formula_lines : formula_lines cg_product_py = [].
Proof. vm_compute. reflexivity. Qed.

(** Every line of either file is accounted for: docstring, comment, blank
    or one of the four statements. *)
Lemma line_census :
  map (fun k => length (lines_of_kind k hea_remd_mc_lammps_py))
      [DocString; Comment; Blank; Code] = [13; 126; 10; 4]
  /\ length hea_remd_mc_lammps_py = 153
  /\ map (fun k => length (lines_of_kind k cg_product_py))
      [DocString; Comment; Blank; Code] = [9; 11; 5; 0]
  /\ length cg_product_py = 25.
Proof. vm_compute. repeat split; reflexivity. Qed.

(** *** Every world *)

Section AnyWorld.

Context {Frames Widget W : Type}.
Variable h : world Frames Widget W.
Variable w : W.

Let import_ase : event Frames Widget := Ev (py_import "ase.io") (inr tt).
Let import_chemiscope : event Frames Widget :=
  Ev (py_import "chemiscope") (inr tt).
Let read_hea : call Frames Widget Frames :=
  ase_io_read "resources/hea.xyz" ":".

(** The script reads once and shows once what it read, or stops at the
    first call that raises. *)
Lemma hea_run_shape :
  let r := run h hea_remd_mc_lammps w in
  (exists fr wd,
      trace r = [ import_ase; import_chemiscope;
                  Ev read_hea (inr fr);
                  Ev (chemiscope_show fr "structure") (inr wd) ]
      /\ outcome r
         = inr {| imported := ["chemiscope"; "ase"]; atoms := Some fr |})
  \/ (exists e,
        outcome r = inl e
        /\ (trace r = [ Ev (py_import "ase.io") (inl e) ]
            \/ trace r = [ import_ase; Ev (py_import "chemiscope") (inl e) ]
            \/ trace r = [ import_ase; import_chemiscope;
                           Ev read_hea (inl e) ]
            \/ exists fr,
                trace r = [ import_ase; import_chemiscope;
                            Ev read_hea (inr fr);
                            Ev (chemiscope_show fr "structure") (inl e) ])).
Proof.
  unfold hea_remd_mc_lammps, outcome, trace, import_ase,
    import_chemiscope, read_hea; cbn.
  destruct (h unit (py_import "ase.io") w) as [[e1 | []] w1]; cbn.
  { right; exists e1; auto. }
  destruct (h unit (py_import "chemiscope") w1) as [[e2 | []] w2]; cbn.
  { right; exists e2; auto. }
  destruct (h Frames (ase_io_read "resources/hea.xyz" ":") w2)
    as [[e3 | fr] w3]; cbn.
  { right; exists e3; auto. }
  destruct (h Widget (chemiscope_show fr "structure") w3)
    as [[e4 | wd] w4]; cbn.
  { right; exists e4; split; [reflexivity |].
    right; right; right; exists fr; reflexivity. }
  left; exists fr, wd; split; reflexivity.
Qed.

(** The calls come in the order of the statements of the file, each one
    made by the statement at its place. *)
Lemma hea_trace_follows_text :
  let r := run h hea_remd_mc_lammps w in
  map event_statement (trace r)
  = firstn (length (trace r)) (map snd (statements hea_remd_mc_lammps_py)).
Proof.
  rewrite hea_statements.
  destruct hea_run_shape as [(fr & wd & Ht & _) | (e & _ & Ht)]; cbv zeta.
  - rewrite Ht; reflexivity.
  - destruct Ht as [Ht | [Ht | [Ht | (fr & Ht)]]]; rewrite Ht; reflexivity.
Qed.

(** What [chemiscope.show] returns reaches neither the globals nor the
    world: changing it changes nothing but the logged answer. *)
Lemma show_value_unused (f : Widget -> Widget) :
  let r := run h hea_remd_mc_lammps w in
  let r' := run (with_widget f h) hea_remd_mc_lammps w in
  outcome r' = outcome r
  /\ final_world r' = final_world r
  /\ map event_statement (trace r') = map event_statement (trace r).
Proof.
  unfold hea_remd_mc_lammps, outcome, final_world, trace, with_widget; cbn.
  destruct (h unit (py_import "ase.io") w) as [[e1 | []] w1]; cbn;
    [auto |].
  destruct (h unit (py_import "chemiscope") w1) as [[e2 | []] w2]; cbn;
    [auto |].
  destruct (h Frames (ase_io_read "resources/hea.xyz" ":") w2)
    as [[e3 | fr] w3]; cbn; [auto |].
  destruct (h Widget (chemiscope_show fr "structure") w3)
    as [[e4 | wd] w4]; cbn; auto.
Qed.

(** The other script makes no call at all. *)
Lemma cg_product_run :
  run h cg_product w = (inr {| imported := []; atoms := None |}, w, []).
Proof. reflexivity. Qed.

End AnyWorld.

(** *** No statement carries logic of the scripts' own *)

Lemma statements_are_straight_line :
  forallb (fun st => negb (introduces_logic (snd st)))
          (statements hea_remd_mc_lammps_py ++ statements cg_product_py)%list
  = true.
Proof. vm_compute. reflexivity. Qed.

(** C10.  The source files implement no acceptance decision, swap or
    exchange logic.  In the text, the two Metropolis formulas stand on
    comment lines only (38, 39, 100 and 101 of the replica-exchange
    example), [cg-product.py] has no statement, and the statements of
    [hea-remd-mc-lammps.py] are the two imports (lines 15 and 16), the read
    (149) and the show (150), none of them a definition, branch or loop.
    Run in any world, whatever the libraries answer, the script imports
    [ase.io] and [chemiscope], reads [resources/hea.xyz] with the
    all-frames index [":"] once, and passes exactly the value it read to
    [chemiscope.show] with mode ["structure"], unless one of these calls
    raises, which ends the run there; the value [show] returns is stored
    nowhere and changing it leaves the outcome and the world as they
    were. *)
Theorem scripts_only_read_and_show :
  (statements cg_product_py = []
   /\ statements hea_remd_mc_lammps_py
      = [ (15, "import ase.io");
          (16, "import chemiscope");
          (149, "atoms = ase.io.read(" ++ dq ++ "resources/hea.xyz" ++ dq
                  ++ ", index=" ++ dq ++ ":" ++ dq ++ ")");
          (150, "chemiscope.show(frames=atoms, mode=" ++ dq ++ "structure"
                  ++ dq ++ ")") ]
   /\ forallb (fun st => negb (introduces_logic (snd st)))
              (statements hea_remd_mc_lammps_py) = true)
  /\ (formula_lines hea_remd_mc_lammps_py
      = [(38, Comment); (39, Comment); (100, Comment); (101, Comment)]
      /\ formula_lines cg_product_py = [])
  /\ forall (Frames Widget W : Type) (h : world Frames Widget W) (w : W),
      let r := run h hea_remd_mc_lammps w in
      run h cg_product w = (inr {| imported := []; atoms := None |}, w, [])
      /\ map event_statement (trace r)
         = firstn (length (trace r))
                  (map snd (statements hea_remd_mc_lammps_py))
      /\ ((exists fr wd,
             trace r = [ Ev (py_import "ase.io") (inr tt);
                         Ev (py_import "chemiscope") (inr tt);
                         Ev (ase_io_read "resources/hea.xyz" ":") (inr fr);
                         Ev (chemiscope_show fr "structure") (inr wd) ]
             /\ outcome r
                = inr {| imported := ["chemiscope"; "ase"];
                         atoms := Some fr |})
          \/ (exists e,
                outcome r = inl e
                /\ (trace r = [ Ev (py_import "ase.io") (inl e) ]
                    \/ trace r = [ Ev (py_import "ase.io") (inr tt);
                                   Ev (py_import "chemiscope") (inl e) ]
                    \/ trace r
                       = [ Ev (py_import "ase.io") (inr tt);
                           Ev (py_import "chemiscope") (inr tt);
                           Ev (ase_io_read "resources/hea.xyz" ":") (inl e) ]
                    \/ exists fr,
                        trace r
                        = [ Ev (py_import "ase.io") (inr tt);
                            Ev (py_import "chemiscope") (inr tt);
                            Ev (ase_io_read "resources/hea.xyz" ":") (inr fr);
                            Ev (chemiscope_show fr "structure") (inl e) ])))
      /\ forall f : Widget -> Widget,
          let r' := run (with_widget f h) hea_remd_mc_lammps w in
          outcome r' = outcome r
          /\ final_world r' = final_world r
          /\ map event_statement (trace r') = map event_statement (trace r).
Proof.
  split; [| split].
  - split; [exact cg_product_statements | split; [exact hea_statements |]].
    vm_compute; reflexivity.
  - split; [exact hea_formula_lines | exact cg_product_formula_lines].
  - intros Frames Widget W h w r.
    split; [apply cg_product_run | split; [apply hea_trace_follows_text |]].
    split; [apply hea_run_shape | intro f; apply show_value_unused].
Qed.

(** *** Imports, failures and the world's state *)

(** In the stand-in world, importing and reading leave the state alone. *)
Lemma demo_import_keeps_state (m : string) (s : Demo.state) :
  snd (Demo.demo unit (py_import m) s) = s.
Proof. reflexivity. Qed.

Lemma demo_read_keeps_state (name index : string) (s : Demo.state) :
  snd (Demo.demo Demo.frames (ase_io_read name index) s) = s.
Proof.
  cbn. destruct (Demo.lookup name (Demo.files s)); [| reflexivity].
  destruct (String.eqb index ":"); [reflexivity |].
  destruct (String.eqb index "-1"); reflexivity.
Qed.

Section Sequencing.

Context {Frames Widget W : Type}.
Variable h : world Frames Widget W.
Variable w : W.

(** X1.  Whenever a run gets as far as calling [ase.io.read] or
    [chemiscope.show], both imports of lines 15 and 16 have succeeded
    before it, [ase.io] first: no library is called before it is
    imported. *)
Theorem imports_precede_library_calls :
  let r := run h hea_remd_mc_lammps w in
  existsb (fun e => is_read e || is_show e)%bool (trace r) = true ->
  firstn 2 (trace r)
  = [ Ev (py_import "ase.io") (inr tt);
      Ev (py_import "chemiscope") (inr tt) ].
Proof.
  cbv zeta.
  destruct (hea_run_shape h w) as [(fr & wd & Ht & _) | (e & _ & Ht)].
  - rewrite Ht; reflexivity.
  - destruct Ht as [Ht | [Ht | [Ht | (fr & Ht)]]]; rewrite Ht; cbn;
      solve [discriminate | reflexivity].
Qed.

(** X2.  An exception raised by an import or by the read ends the script
    with that exception as its outcome, and [chemiscope.show] is not
    called in that run: nothing is displayed without the data. *)
Theorem failure_before_show_displays_nothing :
  let r := run h hea_remd_mc_lammps w in
  forall (ev : event Frames Widget) (e : exn),
    In ev (trace r) -> is_show ev = false -> raised ev = Some e ->
    outcome r = inl e /\ existsb is_show (trace r) = false.
Proof.
  cbv zeta; intros ev e Hin Hns Hr.
  destruct (hea_run_shape h w) as [(fr & wd & Ht & _) | (e' & Ho & Ht)].
  - rewrite Ht in Hin; cbn in Hin.
    destruct Hin as [<- | [<- | [<- | [<- | []]]]]; cbn in Hr, Hns;
      discriminate.
  - rewrite Ho.
    destruct Ht as [Ht | [Ht | [Ht | (fr & Ht)]]]; rewrite Ht in Hin |- *;
      cbn in Hin;
      repeat (destruct Hin as [<- | Hin]; cbn in Hr, Hns;
              [try discriminate; try (injection Hr as <-; split; reflexivity) |]);
      try contradiction.
Qed.

(** X3.  The script has no effect of its own.  In a world where importing
    a module and reading a file leave the state as it was, a run ends in
    the initial state when [chemiscope.show] was not called, and otherwise
    in the state that the single [show] call, given the frames that were
    read, made of the initial state. *)
Theorem only_show_changes_the_world :
  (forall (m : string) (s : W), snd (h unit (py_import m) s) = s) ->
  (forall (name index : string) (s : W),
      snd (h Frames (ase_io_read name index) s) = s) ->
  let r := run h hea_remd_mc_lammps w in
  (existsb is_show (trace r) = false /\ final_world r = w)
  \/ (exists fr : Frames,
        In (Ev (ase_io_read "resources/hea.xyz" ":") (inr fr)) (trace r)
        /\ final_world r
           = snd (h Widget (chemiscope_show fr "structure") w)).
Proof.
  intros Himp Hread.
  unfold hea_remd_mc_lammps, final_world, trace; cbn.
  pose proof (Himp "ase.io" w) as H1.
  destruct (h unit (py_import "ase.io") w) as [[e1 | []] w1];
    cbn in H1 |- *; subst w1; [left; split; reflexivity |].
  pose proof (Himp "chemiscope" w) as H2.
  destruct (h unit (py_import "chemiscope") w) as [[e2 | []] w2];
    cbn in H2 |- *; subst w2; [left; split; reflexivity |].
  pose proof (Hread "resources/hea.xyz" ":" w) as H3.
  destruct (h Frames (ase_io_read "resources/hea.xyz" ":") w)
    as [[e3 | fr] w3]; cbn in H3 |- *; subst w3; [left; split; reflexivity |].
  right; exists fr.
  destruct (h Widget (chemiscope_show fr "structure") w) as [[e4 | wd] w4];
    cbn; split; auto.
Qed.

End Sequencing.

Lemma imports_precede_library_calls_witness :
  existsb (fun e => is_read e || is_show e)%bool
          (trace (run Demo.demo hea_remd_mc_lammps Demo.with_hea)) = true
  /\ firstn 2 (trace (run Demo.demo hea_remd_mc_lammps Demo.with_hea))
     = [ Ev (py_import "ase.io") (inr tt);
         Ev (py_import "chemiscope") (inr tt) ].
Proof.
  split; [reflexivity |].
  apply (imports_precede_library_calls Demo.demo Demo.with_hea); reflexivity.
Defined.

Lemma failure_before_show_displays_nothing_witness :
  outcome (run Demo.demo hea_remd_mc_lammps Demo.without_hea)
  = inl "FileNotFoundError"
  /\ existsb is_show (trace (run Demo.demo hea_remd_mc_lammps Demo.without_hea))
     = false.
Proof.
  apply (failure_before_show_displays_nothing Demo.demo Demo.without_hea
           (Ev (ase_io_read "resources/hea.xyz" ":")
               (inl "FileNotFoundError"))).
  - cbn; auto.
  - reflexivity.
  - reflexivity.
Defined.

Lemma only_show_changes_the_world_witness :
  (existsb is_show (trace (run Demo.demo hea_remd_mc_lammps Demo.with_hea))
   = false
   /\ final_world (run Demo.demo hea_remd_mc_lammps Demo.with_hea)
      = Demo.with_hea)
  \/ (exists fr : Demo.frames,
        In (Ev (ase_io_read "resources/hea.xyz" ":") (inr fr))
           (trace (run Demo.demo hea_remd_mc_lammps Demo.with_hea))
        /\ final_world (run Demo.demo hea_remd_mc_lammps Demo.with_hea)
           = snd (Demo.demo Demo.widget (chemiscope_show fr "structure")
                            Demo.with_hea)).
Proof.
  apply (only_show_changes_the_world Demo.demo Demo.with_hea).
  - exact demo_import_keeps_state.
  - exact demo_read_keeps_state.
Defined.

End ScriptFacts.
